(** * MeloD configuration layer ([config.py])

    A shallow embedding of the configuration classes of the MeloD project:
    the loader [could_load_file], the data-path resolver [_get_data_value]
    and the fixed-path accessors of [ProjectConfig] and [SongConfig],
    together with the properties of the specification that they satisfy
    (or break). *)

From Stdlib Require Import Floats.
From stdpp Require Import gmap strings list fin_maps.

Set Warnings "-register-all".
Local Open Scope string_scope.

(** ** Python values

    What [tomllib.load] builds: a dict from str keys to scalars, lists and
    nested dicts.  [VNone] is Python's [None]; the TOML parser never
    produces it, but the class attribute [_config_data] starts out as it and
    [dict.get] answers with it. *)

Inductive temporal : Type := DateTime | Date | Time.

Inductive value : Type :=
  | VNone
  | VBool (b : bool)
  | VInt (n : Z)
  | VFloat (f : float)
  | VStr (s : string)
  | VTemporal (k : temporal) (iso : string)
  | VList (l : list value)
  | VDict (d : gmap string value).

(** [v is None] *)
Definition is_None (v : value) : bool :=
  match v with VNone => true | _ => false end.

(** Values that are mappings ([dict]); everything else has no [get]. *)
Definition is_mapping (v : value) : bool :=
  match v with VDict _ => true | _ => false end.

(** ** Exceptions

    The two exception classes of the module, and the built-in ones the
    modelled code can meet.  [OtherException] stands for any further
    subclass of [Exception]. *)

Inductive exn : Type :=
  | NotValidConfigDataPathException
  | NotExistsInConfigException (data_path : string)
  | AttributeError (msg : string)
  | ValueError (msg : string)
  | TOMLDecodeError (msg : string)
  | FileNotFoundError (msg : string)
  | OtherException (msg : string).

(** [str(e)]: the message handed to [super().__init__] by the two classes
    of the module, the carried message for the others. *)
Definition exn_message (e : exn) : string :=
  match e with
  | NotValidConfigDataPathException =>
      "The data path for the loaded config is not valid."
  | NotExistsInConfigException data_path =>
      "The config value searched at " ++ data_path ++ " does not exist."
  | AttributeError msg | ValueError msg | TOMLDecodeError msg
  | FileNotFoundError msg | OtherException msg => msg
  end.

Inductive outcome (A : Type) : Type :=
  | Return (a : A)
  | Raise (e : exn).
Arguments Return {A} a.
Arguments Raise {A} e.

(** ** [str.split(sep)] with an explicit separator

    Non-overlapping occurrences of [sep] are cut out from left to right;
    an empty separator raises [ValueError]. *)

Fixpoint is_prefix (p s : string) : bool :=
  match p, s with
  | EmptyString, _ => true
  | String a p', String b s' => if Ascii.eqb a b then is_prefix p' s' else false
  | String _ _, EmptyString => false
  end.

(** [skip] counts the characters of a separator occurrence still to be
    dropped; [cur] is the segment read so far. *)
Fixpoint split_go (sep s : string) (skip : nat) (cur : string) : list string :=
  match s with
  | EmptyString => [cur]
  | String c s' =>
      match skip with
      | S n => split_go sep s' n cur
      | O =>
          if is_prefix sep s
          then cur :: split_go sep s' (String.length sep - 1) ""
          else split_go sep s' 0 (cur ++ String c "")
      end
  end.

Definition str_split (s sep : string) : outcome (list string) :=
  match sep with
  | EmptyString => Raise (ValueError "empty separator")
  | _ => Return (split_go sep s 0 "")
  end.

(** ** The object and the interpreter state

    [_config_data] is declared on the class with the value [None]; an
    instance only has an attribute of its own once something assigns to
    [self._config_data].  [inst_config_data] is that entry of the
    instance's [__dict__]; reading [self._config_data] falls back to the
    class. *)

Record MeloDConfig : Type := { inst_config_data : option value }.

Definition class_config_data : value := VNone.

Definition attr_config_data (self : MeloDConfig) : value :=
  default class_config_data (inst_config_data self).

(** The state the methods run in: the object and what was printed. *)
Record world : Type := { self_obj : MeloDConfig; stdout : list string }.

Definition Py (A : Type) : Type := world -> outcome A * world.

Global Instance Py_ret : MRet Py := fun A a w => (Return a, w).

Global Instance Py_bind : MBind Py := fun A B f m w =>
  match m w with
  | (Return a, w') => f a w'
  | (Raise e, w') => (Raise e, w')
  end.

Definition raise {A} (e : exn) : Py A := fun w => (Raise e, w).

(** Lifts a computation that touches no state. *)
Definition lift {A} (o : outcome A) : Py A := fun w => (o, w).

(** [try: body except Exception as e: handler(e)].  Whatever [body] did
    to the state before raising stays done. *)
Definition try_except {A} (body : Py A) (handler : exn -> Py A) : Py A :=
  fun w =>
    match body w with
    | (Return a, w') => (Return a, w')
    | (Raise e, w') => handler e w'
    end.

Definition get_config_data : Py value :=
  fun w => (Return (attr_config_data (self_obj w)), w).

(** [self._config_data = v] *)
Definition set_config_data (v : value) : Py unit :=
  fun w => (Return tt, {| self_obj := {| inst_config_data := Some v |};
                          stdout := stdout w |}).

Definition print (line : string) : Py unit :=
  fun w => (Return tt, {| self_obj := self_obj w; stdout := stdout w ++ [line] |}).

(** ** Built-ins used by the resolver *)

Definition type_name (v : value) : string :=
  match v with
  | VNone => "NoneType"
  | VBool _ => "bool"
  | VInt _ => "int"
  | VFloat _ => "float"
  | VStr _ => "str"
  | VTemporal DateTime _ => "datetime.datetime"
  | VTemporal Date _ => "datetime.date"
  | VTemporal Time _ => "datetime.time"
  | VList _ => "list"
  | VDict _ => "dict"
  end.

Definition no_attribute (v : value) (attr : string) : exn :=
  AttributeError ("'" ++ type_name v ++ "' object has no attribute '" ++ attr ++ "'").

(** What [None.get] raises. *)
Definition none_has_no_get : exn := no_attribute VNone "get".

(** [data.get(key)]: only a dict has the method; a missing key gives
    [None]. *)
Definition py_get (data : value) (key : string) : outcome value :=
  match data with
  | VDict d => Return (default VNone (d !! key))
  | _ => Raise (no_attribute data "get")
  end.

(** [data_path.split(sep)]: only a str has the method. *)
Definition py_split (data_path : value) (sep : string) : outcome (list string) :=
  match data_path with
  | VStr s => str_split s sep
  | _ => Raise (no_attribute data_path "split")
  end.

(** [v == []] *)
Definition eq_empty_list (v : value) : bool :=
  match v with VList [] => true | _ => false end.

(** [v == s] for a str literal [s] *)
Definition eq_str (v : value) (s : string) : bool :=
  match v with VStr t => String.eqb t s | _ => false end.

(** The text an f-string puts for [{data_path}]; the resolver only gets
    there with a str. *)
Definition format_path (data_path : value) : string :=
  match data_path with VStr s => s | _ => type_name data_path end.

(** ** [MeloDConfig.__init__]

    The assignment binds a local name; the instance is left as it was. *)
Definition __init__ : Py unit :=
  let _config_data := VDict ∅ in
  mret tt.

(** [MeloDConfig()]: a new instance without attributes, then [__init__]. *)
Definition new_config : world :=
  snd (__init__ {| self_obj := {| inst_config_data := None |}; stdout := [] |}).

(** ** [MeloDConfig._get_data_value] *)

(** The [for path in data_path_array] loop, [data] being the loop-carried
    variable. *)
Fixpoint walk (data_path : value) (data_path_array : list string) (data : value)
  : Py value :=
  match data_path_array with
  | [] => mret data
  | path :: rest =>
      data ← lift (py_get data path);
      if is_None data
      then raise (NotExistsInConfigException (format_path data_path))
      else walk data_path rest data
  end.

Definition _get_data_value (data_path : value) (sep : string) : Py value :=
  data_path_array ← lift (py_split data_path sep);
  if is_None data_path || eq_empty_list data_path
  then raise NotValidConfigDataPathException
  else
    data ← get_config_data;
    walk data_path data_path_array data.

(** ** Accessors of [ProjectConfig] and [SongConfig]

    The subclasses add no state and their [__init__] only calls the base
    one.  A tuple expression evaluates its calls from left to right and
    the first exception leaves it. *)

Definition triple (a b c : string) : Py (value * value * value) :=
  x ← _get_data_value (VStr a) "/";
  y ← _get_data_value (VStr b) "/";
  z ← _get_data_value (VStr c) "/";
  mret (x, y, z).

Definition get_printer_angles_per_step : Py (value * value * value) :=
  triple "printer/x_ang" "printer/y_ang" "printer/z_ang".

Definition get_printer_rot_distance_per_rev : Py (value * value * value) :=
  triple "printer/x_rpr" "printer/y_rpr" "printer/z_rpr".

Definition get_printer_dimensions : Py (value * value * value) :=
  triple "printer/x_dim" "printer/y_dim" "printer/z_dim".

Definition get_song_config_path : Py value :=
  _get_data_value (VStr "song/config_filepath") "/".

Definition get_song_properties : Py (value * value) :=
  x ← _get_data_value (VStr "song_name") "/";
  y ← _get_data_value (VStr "song_directory") "/";
  mret (x, y).

Definition get_song_tempo : Py value :=
  _get_data_value (VStr "tempo") "/".

Definition get_song_octaves_adjustment : Py (value * value * value) :=
  triple "x_octave_adj" "y_octave_adj" "z_octave_adj".

(** ** [MeloDConfig.could_load_file]

    The file system and the TOML parser are collaborators outside the
    module: [os.path.abspath], [open(_, "rb")] (answering with the bytes
    of the file) and [tomllib.load], each of which may raise.  Leaving
    the [with] block closes a file that was opened for reading, which is
    taken not to fail. *)

Record Env : Type := {
  os_path_abspath : value -> outcome string;
  open_rb : string -> outcome (list Byte.byte);
  tomllib_load : list Byte.byte -> outcome (gmap string value)
}.

Definition newline_tab : string :=
  String (Ascii.ascii_of_nat 10) (String (Ascii.ascii_of_nat 9) "").

Definition msg_required : string :=
  "A config filepath is required in order to load its information.".
Definition msg_format : string :=
  "The config file could not be loaded due to a format  error." ++ newline_tab
  ++ "Check the file format and try again.".
Definition msg_not_found : string := "The config file could not be found.".
Definition msg_other (e : exn) : string :=
  "Something went wrong: " ++ exn_message e.

(** The body of the [try]. *)
Definition load_body (env : Env) (filepath : value) : Py bool :=
  full_path ← lift (os_path_abspath env filepath);
  config_file ← lift (open_rb env full_path);
  parsed ← lift (tomllib_load env config_file);
  set_config_data (VDict parsed);;
  mret true.

(** The three [except] clauses, in their order. *)
Definition load_handler (e : exn) : Py bool :=
  match e with
  | TOMLDecodeError _ => print msg_format;; mret false
  | FileNotFoundError _ => print msg_not_found;; mret false
  | _ => print (msg_other e);; mret false
  end.

Definition could_load_file (env : Env) (filepath : value) : Py bool :=
  if is_None filepath || eq_str filepath ""
  then print msg_required;; mret false
  else try_except (load_body env filepath) load_handler.

(** ** The walk of the specification

    [Resolves root segs v]: followed from [root], every segment of [segs]
    names an entry of the mapping at hand whose value is not null, and [v]
    is the value at the last one. *)

Inductive Resolves : value -> list string -> value -> Prop :=
  | Resolves_nil v : Resolves v [] v
  | Resolves_cons (d : gmap string value) k v ks w :
      d !! k = Some v -> v <> VNone -> Resolves v ks w ->
      Resolves (VDict d) (k :: ks) w.

(** A store is loaded once an assignment put a dict on the instance. *)
Definition loaded (w : world) (d : gmap string value) : Prop :=
  inst_config_data (self_obj w) = Some (VDict d).

Definition unloaded (w : world) : Prop :=
  inst_config_data (self_obj w) = None.

(** ** A project file and an environment to run the loader in *)

Definition printer_table : gmap string value :=
  list_to_map
    [("x_ang", VFloat 1.5); ("y_ang", VFloat 1.5); ("z_ang", VFloat 0.75);
     ("x_rpr", VFloat 40); ("y_rpr", VFloat 40); ("z_rpr", VFloat 8);
     ("x_dim", VFloat 220); ("y_dim", VFloat 220); ("z_dim", VFloat 250)].

Definition project_doc : gmap string value :=
  <["printer" := VDict printer_table]>
  (<["song" := VDict {["config_filepath" := VStr "songs/ode.toml"]}]> ∅).

Definition project_text : string := "[printer] x_dim = 220.0 ...".

Definition sample_env : Env := {|
  os_path_abspath := fun p =>
    match p with
    | VStr s => Return ("/home/melod/" ++ s)
    | _ => Raise (OtherException "expected str, bytes or os.PathLike object")
    end;
  open_rb := fun full_path =>
    if String.eqb full_path "/home/melod/project.toml"
    then Return (String.list_byte_of_string project_text)
    else if String.eqb full_path "/home/melod/broken.toml"
    then Return (String.list_byte_of_string "[printer")
    else Raise (FileNotFoundError
                  ("[Errno 2] No such file or directory: '" ++ full_path ++ "'"));
  tomllib_load := fun config_file =>
    if String.eqb (String.string_of_list_byte config_file) project_text
    then Return project_doc
    else Raise (TOMLDecodeError "Invalid statement")
|}.

Definition project_world : world :=
  {| self_obj := {| inst_config_data := Some (VDict project_doc) |}; stdout := [] |}.

Definition empty_world : world :=
  {| self_obj := {| inst_config_data := Some (VDict ∅) |}; stdout := [] |}.

(** [sep in s]: some suffix of [s] starts with [sep]. *)
Fixpoint contains (sep s : string) : bool :=
  is_prefix sep s
  || match s with
     | EmptyString => false
     | String _ s' => contains sep s'
     end.

(** A song file, and an object that has loaded it. *)
Definition song_doc : gmap string value :=
  list_to_map
    [("song_name", VStr "Ode to Joy"); ("song_directory", VStr "songs/ode");
     ("tempo", VInt 120);
     ("x_octave_adj", VInt 0); ("y_octave_adj", VInt (-1)); ("z_octave_adj", VInt 1)].

Definition song_world : world :=
  {| self_obj := {| inst_config_data := Some (VDict song_doc) |}; stdout := [] |}.

(** A store with an empty key, which TOML allows when the key is quoted. *)
Definition empty_key_world : world :=
  {| self_obj := {| inst_config_data := Some (VDict {["" := VInt 7]}) |};
     stdout := [] |}.

(** A project file that only gives the x dimension. *)
Definition x_only_world : world :=
  {| self_obj :=
       {| inst_config_data :=
            Some (VDict {["printer" := VDict {["x_dim" := VFloat 220]}]}) |};
     stdout := [] |}.

(** Some step of the [try] of [could_load_file] raises [e]. *)
Definition load_raises (env : Env) (filepath : value) (e : exn) : Prop :=
  os_path_abspath env filepath = Raise e
  \/ (exists full_path,
        os_path_abspath env filepath = Return full_path
        /\ open_rb env full_path = Raise e)
  \/ (exists full_path config_file,
        os_path_abspath env filepath = Return full_path
        /\ open_rb env full_path = Return config_file
        /\ tomllib_load env config_file = Raise e).

(** * Properties *)

Ltac py_unfold :=
  unfold mbind, Py_bind, mret, Py_ret, lift, raise, get_config_data,
    set_config_data, print, try_except in *.

(** ** Splitting *)

Example split_two : str_split "printer/x_dim" "/" = Return ["printer"; "x_dim"].
Proof. reflexivity. Qed.
Example split_empty : str_split "" "/" = Return [""].
Proof. reflexivity. Qed.
Example split_trailing : str_split "a//b/" "/" = Return ["a"; ""; "b"; ""].
Proof. reflexivity. Qed.
Example split_overlap : str_split "aaa" "aa" = Return [""; "a"].
Proof. reflexivity. Qed.
Example split_wide : str_split "a::b" "::" = Return ["a"; "b"].
Proof. reflexivity. Qed.

(** A split on a separator never gives an empty list of segments. *)
Lemma split_go_not_nil sep s skip cur : split_go sep s skip cur <> [].
Proof.
  revert skip cur. induction s as [|c s IH]; intros skip cur; simpl; [done|].
  destruct skip; [|apply IH].
  destruct (is_prefix sep (String c s)); [done|apply IH].
Qed.

Lemma str_split_not_nil s sep segs : str_split s sep = Return segs -> segs <> [].
Proof.
  destruct sep; simpl; [done|]. intros [= <-]. apply split_go_not_nil.
Qed.

Lemma str_split_empty_path sep : sep <> "" -> str_split "" sep = Return [""].
Proof. destruct sep; [done|reflexivity]. Qed.

(** ** The loop *)

Lemma py_get_dict d k : py_get (VDict d) k = Return (default VNone (d !! k)).
Proof. reflexivity. Qed.

(** The loop reads the store and nothing else. *)
Lemma walk_state data_path segs data w : snd (walk data_path segs data w) = w.
Proof.
  revert data. induction segs as [|k segs IH]; intros data; simpl; [done|].
  py_unfold. destruct (py_get data k) as [v|e]; [|done].
  destruct (is_None v); [done|apply IH].
Qed.

(** Along segments that resolve, the loop arrives where the walk of the
    specification does. *)
Lemma walk_resolves data_path segs root v w :
  Resolves root segs v -> walk data_path segs root w = (Return v, w).
Proof.
  induction 1 as [v|d k v ks u Hk Hv _ IH]; simpl; [done|].
  py_unfold. rewrite Hk. simpl. destruct v; try done.
Qed.

Lemma walk_app data_path pre post root v w :
  Resolves root pre v ->
  walk data_path (pre ++ post) root w = walk data_path post v w.
Proof.
  induction 1 as [v|d k v ks u Hk Hv _ IH]; simpl; [done|].
  py_unfold. rewrite Hk. simpl. destruct v; try done.
Qed.

(** A key that is missing, or bound to null, stops the loop. *)
Lemma walk_missing data_path m seg post w :
  m !! seg = None \/ m !! seg = Some VNone ->
  walk data_path (seg :: post) (VDict m) w
  = (Raise (NotExistsInConfigException (format_path data_path)), w).
Proof. simpl. py_unfold. intros [H|H]; rewrite H; reflexivity. Qed.

(** Any value but a dict stops the loop with the missing [get]. *)
Lemma walk_dead_end data_path v seg post w :
  is_mapping v = false ->
  walk data_path (seg :: post) v w = (Raise (no_attribute v "get"), w).
Proof. simpl. py_unfold. by destruct v. Qed.

(** The loop raises the module's not-found error or an attribute error,
    nothing else. *)
Lemma walk_raises data_path segs data w e :
  fst (walk data_path segs data w) = Raise e ->
  e = NotExistsInConfigException (format_path data_path)
  \/ exists v, e = no_attribute v "get".
Proof.
  revert data. induction segs as [|k segs IH]; intros data; simpl; [done|].
  py_unfold. destruct (py_get data k) as [v|e'] eqn:Hget.
  - destruct (is_None v); simpl; [|apply IH].
    intros H. injection H as <-. left. reflexivity.
  - simpl. intros H. injection H as <-. right. exists data.
    destruct data; simpl in Hget; congruence.
Qed.

(** ** The resolver *)

Lemma get_data_value_str data_path sep segs w :
  str_split data_path sep = Return segs ->
  _get_data_value (VStr data_path) sep w
  = walk (VStr data_path) segs (attr_config_data (self_obj w)) w.
Proof. intros Hs. unfold _get_data_value. py_unfold. simpl. by rewrite Hs. Qed.

Lemma loaded_attr w d : loaded w d -> attr_config_data (self_obj w) = VDict d.
Proof. unfold loaded, attr_config_data. by intros ->. Qed.

(** On a loaded store the resolver is the loop, run on the split path from
    the root dict. *)
Lemma get_data_value_loaded w d data_path sep segs :
  loaded w d ->
  str_split data_path sep = Return segs ->
  _get_data_value (VStr data_path) sep w = walk (VStr data_path) segs (VDict d) w.
Proof.
  intros Hl Hs. by rewrite (get_data_value_str _ _ _ _ Hs), (loaded_attr _ _ Hl).
Qed.

Lemma unloaded_attr w : unloaded w -> attr_config_data (self_obj w) = VNone.
Proof. unfold unloaded, attr_config_data. by intros ->. Qed.

(** C1: on a loaded store, a path whose segments (the split on the
    separator) each name an existing, non-null entry when walked from the
    root makes [_get_data_value] return the very value stored at the last
    segment, whatever its type. *)
Theorem get_data_value_returns_stored w d data_path sep segs v :
  loaded w d ->
  str_split data_path sep = Return segs ->
  Resolves (VDict d) segs v ->
  _get_data_value (VStr data_path) sep w = (Return v, w).
Proof.
  intros Hl Hs Hr. rewrite (get_data_value_loaded _ _ _ _ _ Hl Hs).
  by apply walk_resolves.
Qed.

(** C3: on a loaded store and a non-empty path, when the walk reaches a
    mapping in which the next segment is absent or bound to null, the
    resolver raises [NotExistsInConfigException] there, whatever segments
    follow, and the message of the exception quotes the whole path that
    was passed. *)
Theorem get_data_value_not_found w d data_path sep (pre : list string) seg post m :
  loaded w d ->
  data_path <> "" ->
  str_split data_path sep = Return (pre ++ seg :: post)%list ->
  Resolves (VDict d) pre (VDict m) ->
  m !! seg = None \/ m !! seg = Some VNone ->
  _get_data_value (VStr data_path) sep w
  = (Raise (NotExistsInConfigException data_path), w)
  /\ exn_message (NotExistsInConfigException data_path)
     = "The config value searched at " ++ data_path ++ " does not exist.".
Proof.
  intros Hl _ Hs Hr Hm. split; [|done].
  rewrite (get_data_value_loaded _ _ _ _ _ Hl Hs).
  rewrite (walk_app _ _ _ _ _ _ Hr). by rewrite walk_missing.
Qed.

(** What the resolver does when a segment resolves to something that is
    not a mapping and a further segment follows: the missing [get] method
    surfaces as an [AttributeError]. *)
Lemma get_data_value_dead_end w d data_path sep (pre : list string) seg post v :
  loaded w d ->
  str_split data_path sep = Return (pre ++ seg :: post)%list ->
  Resolves (VDict d) pre v ->
  is_mapping v = false ->
  _get_data_value (VStr data_path) sep w = (Raise (no_attribute v "get"), w).
Proof.
  intros Hl Hs Hr Hv.
  rewrite (get_data_value_loaded _ _ _ _ _ Hl Hs).
  rewrite (walk_app _ _ _ _ _ _ Hr). by apply walk_dead_end.
Qed.

(** The resolver never raises [NotValidConfigDataPathException]: by the
    time the guard runs, [data_path] has answered [split], so it is a str,
    and a str is neither [None] nor equal to a list. *)
Lemma get_data_value_never_invalid data_path sep w :
  fst (_get_data_value data_path sep w) <> Raise NotValidConfigDataPathException.
Proof.
  unfold _get_data_value. py_unfold.
  destruct data_path; simpl; try done.
  destruct (str_split s sep) as [segs|e] eqn:Hs; simpl.
  - intros He. apply walk_raises in He as [He | [v He]]; [done|].
    unfold no_attribute in He. done.
  - destruct sep; simpl in Hs; [by injection Hs as <-|done].
Qed.

(** C1 at ["printer/x_dim"] of the project file. *)
Lemma get_data_value_returns_stored_witness :
  _get_data_value (VStr "printer/x_dim") "/" project_world
  = (Return (VFloat 220), project_world).
Proof.
  apply (get_data_value_returns_stored project_world project_doc
           "printer/x_dim" "/" ["printer"; "x_dim"] (VFloat 220)).
  - reflexivity.
  - reflexivity.
  - apply (Resolves_cons project_doc "printer" (VDict printer_table));
      [vm_compute; reflexivity | discriminate |].
    apply (Resolves_cons printer_table "x_dim" (VFloat 220));
      [vm_compute; reflexivity | discriminate | apply Resolves_nil].
Defined.

(** C3 at ["printer/w_dim/unit"]: the table has no [w_dim]. *)
Lemma get_data_value_not_found_witness :
  _get_data_value (VStr "printer/w_dim/unit") "/" project_world
  = (Raise (NotExistsInConfigException "printer/w_dim/unit"), project_world)
  /\ exn_message (NotExistsInConfigException "printer/w_dim/unit")
     = "The config value searched at printer/w_dim/unit does not exist.".
Proof.
  apply (get_data_value_not_found project_world project_doc
           "printer/w_dim/unit" "/" ["printer"] "w_dim" ["unit"] printer_table).
  - reflexivity.
  - discriminate.
  - reflexivity.
  - apply (Resolves_cons project_doc "printer" (VDict printer_table));
      [vm_compute; reflexivity | discriminate | apply Resolves_nil].
  - left. vm_compute. reflexivity.
Defined.

(** X5: what an empty path does on a loaded store: the split gives the
    one empty segment, which is looked up like any other key. *)
Lemma get_data_value_empty_path w d sep :
  loaded w d -> sep <> "" ->
  _get_data_value (VStr "") sep w
  = match d !! "" with
    | Some v => if is_None v then (Raise (NotExistsInConfigException ""), w)
                else (Return v, w)
    | None => (Raise (NotExistsInConfigException ""), w)
    end.
Proof.
  intros Hl Hsep.
  rewrite (get_data_value_str _ _ _ _ (str_split_empty_path _ Hsep)).
  rewrite (loaded_attr _ _ Hl). simpl. py_unfold.
  destruct (d !! "") as [v|]; simpl; [|done]. by destruct (is_None v).
Qed.

(** C2: the empty path on a store without an empty key.  The resolver
    raises [NotExistsInConfigException] where its docstring and the
    specification promise [NotValidConfigDataPathException]. *)
Theorem get_data_value_empty_path_not_found :
  _get_data_value (VStr "") "/" empty_world
  = (Raise (NotExistsInConfigException ""), empty_world).
Proof. vm_compute. reflexivity. Qed.

(** C4: ["printer/x_dim/unit"] on the project file.  [printer/x_dim] is a
    float and a segment follows: the resolver leaves with an
    [AttributeError], not with [NotExistsInConfigException]. *)
Theorem get_data_value_scalar_dead_end :
  _get_data_value (VStr "printer/x_dim/unit") "/" project_world
  = (Raise (AttributeError "'float' object has no attribute 'get'"), project_world).
Proof. vm_compute. reflexivity. Qed.

(** ** The loader *)

Section Loader.
Variable env : Env.

(** The guard on [filepath], as it is decided. *)
Lemma filepath_guard filepath :
  is_None filepath || eq_str filepath "" = true
  <-> filepath = VNone \/ filepath = VStr "".
Proof.
  split.
  - destruct filepath as [| | | |s| | |]; simpl; try done; [by left|].
    destruct s; [by right|done].
  - by intros [-> | ->].
Qed.

(** Either the call printed one line, answered [False] and left the
    object alone, or every step of the [try] went through and the
    parsed dict is the store. *)
Lemma could_load_file_cases filepath w :
  (exists line,
      could_load_file env filepath w
      = (Return false,
         {| self_obj := self_obj w; stdout := (stdout w ++ [line])%list |}))
  \/ (exists full_path config_file parsed,
      is_None filepath || eq_str filepath "" = false
      /\ os_path_abspath env filepath = Return full_path
      /\ open_rb env full_path = Return config_file
      /\ tomllib_load env config_file = Return parsed
      /\ could_load_file env filepath w
         = (Return true,
            {| self_obj := {| inst_config_data := Some (VDict parsed) |};
               stdout := stdout w |})).
Proof.
  unfold could_load_file, load_body.
  destruct (is_None filepath || eq_str filepath "") eqn:Hg.
  { left. eexists. reflexivity. }
  py_unfold.
  destruct (os_path_abspath env filepath) as [full_path|e] eqn:Ha.
  - destruct (open_rb env full_path) as [config_file|e] eqn:Ho.
    + destruct (tomllib_load env config_file) as [parsed|e] eqn:Hp.
      * right. by exists full_path, config_file, parsed.
      * left. destruct e; eexists; reflexivity.
    + left. destruct e; eexists; reflexivity.
  - left. destruct e; eexists; reflexivity.
Qed.

(** With a filepath that passes the guard, a file that opens and a
    content that parses, the load succeeds from any state. *)
Lemma could_load_file_success filepath w full_path config_file parsed :
  is_None filepath || eq_str filepath "" = false ->
  os_path_abspath env filepath = Return full_path ->
  open_rb env full_path = Return config_file ->
  tomllib_load env config_file = Return parsed ->
  could_load_file env filepath w
  = (Return true,
     {| self_obj := {| inst_config_data := Some (VDict parsed) |};
        stdout := stdout w |}).
Proof.
  intros Hg Ha Ho Hp. unfold could_load_file, load_body. rewrite Hg.
  py_unfold. by rewrite Ha, Ho, Hp.
Qed.

Lemma could_load_file_true filepath w w' :
  could_load_file env filepath w = (Return true, w') ->
  exists full_path config_file parsed,
    is_None filepath || eq_str filepath "" = false
    /\ os_path_abspath env filepath = Return full_path
    /\ open_rb env full_path = Return config_file
    /\ tomllib_load env config_file = Return parsed
    /\ w' = {| self_obj := {| inst_config_data := Some (VDict parsed) |};
               stdout := stdout w |}.
Proof.
  intros H.
  destruct (could_load_file_cases filepath w)
    as [[line Hc] | (fp & cf & parsed & Hg & Ha & Ho & Hp & Hc)];
    rewrite Hc in H; [done|].
  injection H as <-. by exists fp, cf, parsed.
Qed.

Lemma could_load_file_false filepath w w' :
  could_load_file env filepath w = (Return false, w') ->
  self_obj w' = self_obj w.
Proof.
  intros H.
  destruct (could_load_file_cases filepath w)
    as [[line Hc] | (fp & cf & parsed & _ & _ & _ & _ & Hc)];
    rewrite Hc in H; [|done].
  by injection H as <-.
Qed.

(** C5: [could_load_file] always returns, and returns a boolean; the
    boolean is [False] when the filepath is [None] or empty, when the
    file cannot be opened (it does not exist, or anything else), when its
    content is refused by the parser, and when anything else is raised
    on the way: one and the same [False] for all of them. *)
Theorem could_load_file_never_raises filepath w :
  exists b w',
    could_load_file env filepath w = (Return b, w')
    /\ (filepath = VNone \/ filepath = VStr "" -> b = false)
    /\ (forall e, os_path_abspath env filepath = Raise e -> b = false)
    /\ (forall full_path e,
          os_path_abspath env filepath = Return full_path ->
          open_rb env full_path = Raise e -> b = false)
    /\ (forall full_path config_file e,
          os_path_abspath env filepath = Return full_path ->
          open_rb env full_path = Return config_file ->
          tomllib_load env config_file = Raise e -> b = false).
Proof.
  destruct (could_load_file_cases filepath w)
    as [[line Hc] | (fp & cf & parsed & Hg & Ha & Ho & Hp & Hc)].
  - exists false. eexists. split; [exact Hc|]. by repeat split.
  - exists true. eexists. split; [exact Hc|]. repeat split.
    + intros Hf. apply filepath_guard in Hf. congruence.
    + intros e He. congruence.
    + intros fp' e Ha' Ho'. congruence.
    + intros fp' cf' e Ha' Ho' Hp'. congruence.
Qed.

(** C6: whatever [could_load_file] returns, if it is [False] the object
    holds what it held before the call (a loaded store is the same
    store, an unset one is still unset); if it is [True] the store is the
    dict the parser returned for the file, whatever was there before. *)
Theorem could_load_file_store filepath w b w' :
  could_load_file env filepath w = (Return b, w') ->
  (b = false -> self_obj w' = self_obj w)
  /\ (b = true ->
      exists full_path config_file parsed,
        os_path_abspath env filepath = Return full_path
        /\ open_rb env full_path = Return config_file
        /\ tomllib_load env config_file = Return parsed
        /\ self_obj w' = {| inst_config_data := Some (VDict parsed) |}).
Proof.
  intros H. split; intros ->.
  - by apply (could_load_file_false filepath).
  - apply could_load_file_true in H as (fp & cf & parsed & _ & Ha & Ho & Hp & ->).
    by exists fp, cf, parsed.
Qed.

(** C7: after a successful load of a file whose parsed content defines
    [printer.x_dim], [printer.y_dim] and [printer.z_dim] (a TOML file
    binds no key to null), [get_printer_dimensions] returns exactly
    those three values, x first, then y, then z. *)
Theorem get_printer_dimensions_after_load
    filepath w w' full_path config_file parsed x y z :
  could_load_file env filepath w = (Return true, w') ->
  os_path_abspath env filepath = Return full_path ->
  open_rb env full_path = Return config_file ->
  tomllib_load env config_file = Return parsed ->
  Resolves (VDict parsed) ["printer"; "x_dim"] x ->
  Resolves (VDict parsed) ["printer"; "y_dim"] y ->
  Resolves (VDict parsed) ["printer"; "z_dim"] z ->
  get_printer_dimensions w' = (Return (x, y, z), w').
Proof.
  intros H Ha Ho Hp Hx Hy Hz.
  apply could_load_file_true in H as (fp & cf & parsed' & _ & Ha' & Ho' & Hp' & ->).
  assert (parsed' = parsed) as -> by congruence.
  set (w' := {| self_obj := _; stdout := _ |}).
  assert (loaded w' parsed) as Hl by reflexivity.
  unfold get_printer_dimensions, triple. unfold mbind at 1, Py_bind at 1.
  rewrite (get_data_value_loaded w' parsed "printer/x_dim" "/" _ Hl eq_refl).
  rewrite (walk_resolves _ _ _ _ w' Hx). unfold mbind at 1, Py_bind at 1.
  rewrite (get_data_value_loaded w' parsed "printer/y_dim" "/" _ Hl eq_refl).
  rewrite (walk_resolves _ _ _ _ w' Hy). unfold mbind at 1, Py_bind at 1.
  rewrite (get_data_value_loaded w' parsed "printer/z_dim" "/" _ Hl eq_refl).
  by rewrite (walk_resolves _ _ _ _ w' Hz).
Qed.

(** C8: a second load of the same file, right after a successful one,
    succeeds too and leaves the very same state, so the resolver and
    every accessor answer after the second load what they answered after
    the first. *)
Theorem could_load_file_twice filepath w w1 r w2 :
  could_load_file env filepath w = (Return true, w1) ->
  could_load_file env filepath w1 = (r, w2) ->
  r = Return true /\ w2 = w1
  /\ (forall data_path sep,
        fst (_get_data_value data_path sep w2) = fst (_get_data_value data_path sep w1))
  /\ fst (get_printer_angles_per_step w2) = fst (get_printer_angles_per_step w1)
  /\ fst (get_printer_rot_distance_per_rev w2) = fst (get_printer_rot_distance_per_rev w1)
  /\ fst (get_printer_dimensions w2) = fst (get_printer_dimensions w1)
  /\ fst (get_song_config_path w2) = fst (get_song_config_path w1)
  /\ fst (get_song_properties w2) = fst (get_song_properties w1)
  /\ fst (get_song_tempo w2) = fst (get_song_tempo w1)
  /\ fst (get_song_octaves_adjustment w2) = fst (get_song_octaves_adjustment w1).
Proof.
  intros H1 H2.
  apply could_load_file_true in H1 as (fp & cf & parsed & Hg & Ha & Ho & Hp & ->).
  rewrite (could_load_file_success _ _ _ _ _ Hg Ha Ho Hp) in H2.
  injection H2 as <- <-. simpl. by repeat split.
Qed.
End Loader.

(** C6 in [sample_env]: [missing.toml] does not exist, and the loaded
    project store is still there after the failed call. *)
Lemma could_load_file_store_witness :
  (false = false ->
   self_obj {| self_obj := self_obj project_world;
               stdout := [msg_not_found] |} = self_obj project_world)
  /\ (false = true ->
      exists full_path config_file parsed,
        os_path_abspath sample_env (VStr "missing.toml") = Return full_path
        /\ open_rb sample_env full_path = Return config_file
        /\ tomllib_load sample_env config_file = Return parsed
        /\ self_obj {| self_obj := self_obj project_world;
                       stdout := [msg_not_found] |}
           = {| inst_config_data := Some (VDict parsed) |}).
Proof.
  apply (could_load_file_store sample_env (VStr "missing.toml") project_world).
  vm_compute. reflexivity.
Defined.

(** C7 in [sample_env]: [project.toml] loaded into a new object. *)
Lemma get_printer_dimensions_after_load_witness :
  get_printer_dimensions project_world
  = (Return (VFloat 220, VFloat 220, VFloat 250), project_world).
Proof.
  apply (get_printer_dimensions_after_load sample_env (VStr "project.toml")
           new_config project_world "/home/melod/project.toml"
           (String.list_byte_of_string project_text) project_doc).
  - vm_compute. reflexivity.
  - reflexivity.
  - reflexivity.
  - vm_compute. reflexivity.
  - apply (Resolves_cons project_doc "printer" (VDict printer_table));
      [vm_compute; reflexivity | discriminate |].
    apply (Resolves_cons printer_table "x_dim" (VFloat 220));
      [vm_compute; reflexivity | discriminate | apply Resolves_nil].
  - apply (Resolves_cons project_doc "printer" (VDict printer_table));
      [vm_compute; reflexivity | discriminate |].
    apply (Resolves_cons printer_table "y_dim" (VFloat 220));
      [vm_compute; reflexivity | discriminate | apply Resolves_nil].
  - apply (Resolves_cons project_doc "printer" (VDict printer_table));
      [vm_compute; reflexivity | discriminate |].
    apply (Resolves_cons printer_table "z_dim" (VFloat 250));
      [vm_compute; reflexivity | discriminate | apply Resolves_nil].
Defined.

(** C8 in [sample_env]: [project.toml] loaded twice in a row. *)
Lemma could_load_file_twice_witness :
  Return true = Return true /\ project_world = project_world
  /\ (forall data_path sep,
        fst (_get_data_value data_path sep project_world)
        = fst (_get_data_value data_path sep project_world))
  /\ fst (get_printer_angles_per_step project_world)
     = fst (get_printer_angles_per_step project_world)
  /\ fst (get_printer_rot_distance_per_rev project_world)
     = fst (get_printer_rot_distance_per_rev project_world)
  /\ fst (get_printer_dimensions project_world)
     = fst (get_printer_dimensions project_world)
  /\ fst (get_song_config_path project_world)
     = fst (get_song_config_path project_world)
  /\ fst (get_song_properties project_world)
     = fst (get_song_properties project_world)
  /\ fst (get_song_tempo project_world) = fst (get_song_tempo project_world)
  /\ fst (get_song_octaves_adjustment project_world)
     = fst (get_song_octaves_adjustment project_world).
Proof.
  apply (could_load_file_twice sample_env (VStr "project.toml")
           new_config project_world (Return true) project_world).
  - vm_compute. reflexivity.
  - vm_compute. reflexivity.
Defined.

(** The loader on the three kinds of failure of [sample_env], and on
    success. *)
Example load_missing :
  could_load_file sample_env (VStr "missing.toml") project_world
  = (Return false,
     {| self_obj := self_obj project_world; stdout := [msg_not_found] |}).
Proof. vm_compute. reflexivity. Qed.

Example load_broken :
  could_load_file sample_env (VStr "broken.toml") project_world
  = (Return false,
     {| self_obj := self_obj project_world; stdout := [msg_format] |}).
Proof. vm_compute. reflexivity. Qed.

Example load_not_a_path :
  could_load_file sample_env (VInt 5) new_config
  = (Return false,
     {| self_obj := self_obj new_config;
        stdout := ["Something went wrong: expected str, bytes or os.PathLike object"] |}).
Proof. vm_compute. reflexivity. Qed.

Example load_project :
  could_load_file sample_env (VStr "project.toml") new_config
  = (Return true, project_world).
Proof. vm_compute. reflexivity. Qed.

(** ** The store is only read *)

Lemma bind_state {A B} (m : Py A) (k : A -> Py B) w :
  (forall w0, snd (m w0) = w0) -> (forall a w0, snd (k a w0) = w0) ->
  snd ((m ≫= k) w) = w.
Proof.
  intros Hm Hk. unfold mbind, Py_bind. specialize (Hm w).
  destruct (m w) as [[a|e] w1]; simpl in Hm; subst w1; [apply Hk|done].
Qed.

Lemma get_data_value_state data_path sep w :
  snd (_get_data_value data_path sep w) = w.
Proof.
  unfold _get_data_value. apply bind_state; [done|].
  intros segs w0. destruct (is_None data_path || eq_empty_list data_path); [done|].
  apply bind_state; [done|]. intros data w1. apply walk_state.
Qed.

Lemma triple_state a b c w : snd (triple a b c w) = w.
Proof.
  unfold triple.
  repeat (apply bind_state; [intros; apply get_data_value_state|intros]).
  done.
Qed.

(** C9: for every path and separator, [_get_data_value] hands back the
    state it was called in, store included, whether it returns or raises;
    so does every accessor, and so does [__init__]. *)
Theorem store_is_read_only data_path sep w :
  snd (_get_data_value data_path sep w) = w
  /\ self_obj (snd (_get_data_value data_path sep w)) = self_obj w
  /\ snd (get_printer_angles_per_step w) = w
  /\ snd (get_printer_rot_distance_per_rev w) = w
  /\ snd (get_printer_dimensions w) = w
  /\ snd (get_song_config_path w) = w
  /\ snd (get_song_properties w) = w
  /\ snd (get_song_tempo w) = w
  /\ snd (get_song_octaves_adjustment w) = w
  /\ snd (__init__ w) = w.
Proof.
  repeat split; try apply triple_state; try apply get_data_value_state.
  - by rewrite get_data_value_state.
  - unfold get_song_properties.
    repeat (apply bind_state; [intros; apply get_data_value_state|intros]).
    done.
Qed.

(** ** The unloaded state *)

Lemma unloaded_get_data_value w data_path sep :
  unloaded w -> sep <> "" ->
  _get_data_value (VStr data_path) sep w = (Raise none_has_no_get, w).
Proof.
  intros Hu Hsep.
  destruct (str_split data_path sep) as [segs|e] eqn:Hs;
    [|destruct sep; [done|discriminate Hs]].
  rewrite (get_data_value_str _ _ _ _ Hs), (unloaded_attr _ Hu).
  destruct segs as [|seg post]; [by apply str_split_not_nil in Hs|].
  by apply walk_dead_end.
Qed.

Lemma unloaded_triple w a b c :
  unloaded w -> triple a b c w = (Raise none_has_no_get, w).
Proof.
  intros Hu. unfold triple, mbind, Py_bind.
  by rewrite (unloaded_get_data_value w a "/" Hu).
Qed.

(** The counterexample to C10 as it is written: on a new object, a
    resolver call with the empty separator fails in [split], with a
    [ValueError], before the store is looked at. *)
Lemma unloaded_empty_separator_value_error :
  unloaded new_config
  /\ _get_data_value (VStr "printer/x_dim") "" new_config
     = (Raise (ValueError "empty separator"), new_config)
  /\ forall msg,
       fst (_get_data_value (VStr "printer/x_dim") "" new_config)
       <> Raise (AttributeError msg).
Proof. repeat split. intros msg. vm_compute. discriminate. Qed.

(** C10, amended: a newly constructed object has no store of its own and
    [_config_data] reads as the class's [None]; a failed load keeps it so;
    and in that state every resolver call on a str path with a non-empty
    separator, and every accessor, fails with the [AttributeError] of
    [None.get], which is neither of the two exceptions of the module. *)
Theorem unloaded_calls_raise_attribute_error :
  unloaded new_config
  /\ attr_config_data (self_obj new_config) = VNone
  /\ (forall env filepath w w',
        unloaded w -> could_load_file env filepath w = (Return false, w') ->
        unloaded w')
  /\ forall w,
       unloaded w ->
       (forall data_path sep,
           sep <> "" ->
           _get_data_value (VStr data_path) sep w = (Raise none_has_no_get, w))
       /\ get_printer_angles_per_step w = (Raise none_has_no_get, w)
       /\ get_printer_rot_distance_per_rev w = (Raise none_has_no_get, w)
       /\ get_printer_dimensions w = (Raise none_has_no_get, w)
       /\ get_song_config_path w = (Raise none_has_no_get, w)
       /\ get_song_properties w = (Raise none_has_no_get, w)
       /\ get_song_tempo w = (Raise none_has_no_get, w)
       /\ get_song_octaves_adjustment w = (Raise none_has_no_get, w)
       /\ none_has_no_get <> NotValidConfigDataPathException
       /\ forall data_path, none_has_no_get <> NotExistsInConfigException data_path.
Proof.
  split; [reflexivity|]. split; [reflexivity|]. split.
  - intros env filepath w w' Hu H. unfold unloaded in *.
    by rewrite (could_load_file_false env filepath w w' H).
  - intros w Hu.
    split; [intros data_path sep Hsep; by apply unloaded_get_data_value|].
    do 3 (split; [by apply unloaded_triple|]).
    split; [by apply unloaded_get_data_value|].
    split.
    { unfold get_song_properties, mbind, Py_bind.
      by rewrite (unloaded_get_data_value w "song_name" "/" Hu). }
    split; [by apply unloaded_get_data_value|].
    split; [by apply unloaded_triple|].
    split; [discriminate|intros data_path; discriminate].
Qed.

(** C10 on a new object, with the default separator. *)
Lemma unloaded_calls_raise_attribute_error_witness :
  _get_data_value (VStr "printer/x_dim") "/" new_config
  = (Raise none_has_no_get, new_config).
Proof.
  destruct unloaded_calls_raise_attribute_error as (Hnew & _ & _ & H).
  destruct (H new_config Hnew) as [Hres _].
  apply Hres. discriminate.
Defined.

(** * Further properties of the resolver *)

Lemma append_cons c (a b : string) : String c a ++ b = String c (a ++ b).
Proof. reflexivity. Qed.

Lemma string_app_nil_r (s : string) : s ++ "" = s.
Proof. induction s as [|c s IH]; [done|]. by rewrite append_cons, IH. Qed.

Lemma string_app_assoc (a b c : string) : (a ++ b) ++ c = a ++ (b ++ c).
Proof. induction a as [|x a IH]; [done|]. by rewrite !append_cons, IH. Qed.

Lemma is_prefix_app (p s : string) : is_prefix p (p ++ s) = true.
Proof.
  induction p as [|c p IH]; [done|]. rewrite append_cons. simpl.
  by rewrite Ascii.eqb_refl.
Qed.

(** Without an occurrence of the separator there is one segment. *)
Lemma split_go_no_sep sep s cur :
  contains sep s = false -> split_go sep s 0 cur = [cur ++ s].
Proof.
  revert cur. induction s as [|c s IH]; intros cur; simpl.
  - by rewrite string_app_nil_r.
  - intros H. apply orb_false_elim in H as [Hp Hc]. rewrite Hp.
    rewrite (IH _ Hc). by rewrite string_app_assoc.
Qed.

(** The rest of a separator occurrence is dropped. *)
Lemma split_go_skip sep (pre s : string) cur :
  split_go sep (pre ++ s) (String.length pre) cur = split_go sep s 0 cur.
Proof.
  induction pre as [|c pre IH]; [by destruct s|].
  rewrite append_cons. exact IH.
Qed.

(** A path that starts with the separator starts with an empty segment. *)
Lemma split_go_leading c sep s :
  split_go (String c sep) (String c sep ++ s) 0 ""
  = "" :: split_go (String c sep) s 0 "".
Proof.
  pose proof (is_prefix_app (String c sep) s) as Hp.
  rewrite append_cons in *. cbn [split_go]. rewrite Hp.
  cbn [String.length]. rewrite Nat.sub_1_r. cbn [Nat.pred].
  by rewrite split_go_skip.
Qed.

(** With a separator of one character, the segments of two paths joined
    by it are the segments of the first followed by those of the second. *)
Lemma split_go_join c (s q : string) cur :
  split_go (String c "") (s ++ String c q) 0 cur
  = (split_go (String c "") s 0 cur ++ split_go (String c "") q 0 "")%list.
Proof.
  revert cur. induction s as [|a s IH]; intros cur.
  - change ("" ++ String c q) with (String c q). cbn [split_go is_prefix].
    by rewrite Ascii.eqb_refl.
  - rewrite append_cons. cbn [split_go is_prefix].
    destruct (Ascii.eqb c a); [|apply IH].
    cbn [String.length Nat.sub]. by rewrite IH.
Qed.

(** What the loop returns was reached by the walk of the specification. *)
Lemma walk_returns data_path segs root w v :
  fst (walk data_path segs root w) = Return v -> Resolves root segs v.
Proof.
  revert root. induction segs as [|k segs IH]; intros root; simpl.
  - intros H. injection H as ->. constructor.
  - py_unfold. destruct root; simpl; try done.
    destruct (d !! k) as [u|] eqn:Hk; simpl; [|done].
    destruct (is_None u) eqn:Hu; simpl; [done|].
    intros H. apply (Resolves_cons _ _ u); [done|by destruct u|by apply IH].
Qed.


(** The value the loop returns does not depend on the path string that
    is kept for the error message. *)
Lemma walk_returns_any_path data_path1 data_path2 segs root w v :
  fst (walk data_path1 segs root w) = Return v ->
  fst (walk data_path2 segs root w) = Return v.
Proof.
  intros H. apply walk_returns in H.
  by rewrite (walk_resolves data_path2 _ _ _ w H).
Qed.



(** X2: on a loaded store, the resolver returns [v] for a path exactly
    when every segment of the split path names an existing, non-null
    entry and [v] is the value at the last one. *)
Theorem get_data_value_returns_iff w d data_path sep segs v :
  loaded w d ->
  str_split data_path sep = Return segs ->
  fst (_get_data_value (VStr data_path) sep w) = Return v
  <-> Resolves (VDict d) segs v.
Proof.
  intros Hl Hs. rewrite (get_data_value_loaded _ _ _ _ _ Hl Hs). split.
  - apply walk_returns.
  - intros Hr. by rewrite (walk_resolves _ _ _ _ w Hr).
Qed.

Lemma get_data_value_returns_iff_witness :
  fst (_get_data_value (VStr "song/config_filepath") "/" project_world)
  = Return (VStr "songs/ode.toml")
  <-> Resolves (VDict project_doc) ["song"; "config_filepath"] (VStr "songs/ode.toml").
Proof.
  apply (get_data_value_returns_iff project_world project_doc
           "song/config_filepath" "/"); reflexivity.
Defined.



(** The empty path of X5 on a store that has an empty key. *)
Lemma get_data_value_empty_path_witness :
  _get_data_value (VStr "") "/" empty_key_world
  = match ({["" := VInt 7]} : gmap string value) !! "" with
    | Some v => if is_None v
                then (Raise (NotExistsInConfigException ""), empty_key_world)
                else (Return v, empty_key_world)
    | None => (Raise (NotExistsInConfigException ""), empty_key_world)
    end.
Proof.
  apply (get_data_value_empty_path empty_key_world {["" := VInt 7]} "/").
  - reflexivity.
  - discriminate.
Defined.

Example empty_path_returns :
  _get_data_value (VStr "") "/" empty_key_world = (Return (VInt 7), empty_key_world).
Proof. vm_compute. reflexivity. Qed.

Lemma str_split_char c s :
  str_split s (String c "") = Return (split_go (String c "") s 0 "").
Proof. reflexivity. Qed.

Lemma str_split_join c (s q : string) :
  str_split (s ++ String c q) (String c "")
  = Return (split_go (String c "") s 0 "" ++ split_go (String c "") q 0 "")%list.
Proof. by rewrite str_split_char, split_go_join. Qed.

(** X4: with a separator of one character, once a path resolves to a
    value that is not a mapping, every path that goes on below it, through
    the separator, leaves the resolver with the [AttributeError] of the
    missing [get] of that value. *)
Theorem get_data_value_below_scalar w c data_path rest v :
  fst (_get_data_value (VStr data_path) (String c "") w) = Return v ->
  is_mapping v = false ->
  _get_data_value (VStr (data_path ++ String c rest)) (String c "") w
  = (Raise (no_attribute v "get"), w).
Proof.
  intros Hret Hv.
  rewrite (get_data_value_str _ _ _ _ (str_split_char c data_path)) in Hret.
  apply walk_returns in Hret.
  rewrite (get_data_value_str _ _ _ _ (str_split_join c data_path rest)).
  rewrite (walk_app _ _ _ _ _ _ Hret).
  destruct (split_go (String c "") rest 0 "") as [|seg post] eqn:Hq;
    [by apply split_go_not_nil in Hq|].
  by apply walk_dead_end.
Qed.

Lemma get_data_value_below_scalar_witness :
  _get_data_value (VStr "song/config_filepath/name") "/" project_world
  = (Raise (no_attribute (VStr "songs/ode.toml") "get"), project_world).
Proof.
  apply (get_data_value_below_scalar project_world _
           "song/config_filepath" "name" (VStr "songs/ode.toml")).
  - vm_compute. reflexivity.
  - reflexivity.
Defined.

(** X6: on a loaded store, a path in which the separator does not occur
    is one key of the root dict: the resolver returns the value bound to
    it, and raises the not-found error when the key is missing or bound to
    null. *)
Theorem get_data_value_single_key w d data_path sep :
  loaded w d ->
  contains sep data_path = false ->
  _get_data_value (VStr data_path) sep w
  = match d !! data_path with
    | Some v => if is_None v
                then (Raise (NotExistsInConfigException data_path), w)
                else (Return v, w)
    | None => (Raise (NotExistsInConfigException data_path), w)
    end.
Proof.
  intros Hl Hc.
  assert (str_split data_path sep = Return [data_path]) as Hs.
  { destruct sep as [|a sep]; [by destruct data_path|].
    unfold str_split. by rewrite (split_go_no_sep _ _ "" Hc). }
  rewrite (get_data_value_loaded _ _ _ _ _ Hl Hs). simpl. py_unfold.
  destruct (d !! data_path) as [v|]; simpl; [|done]. by destruct (is_None v).
Qed.

Lemma get_data_value_single_key_witness :
  _get_data_value (VStr "tempo") "/" song_world
  = match song_doc !! "tempo" with
    | Some v => if is_None v
                then (Raise (NotExistsInConfigException "tempo"), song_world)
                else (Return v, song_world)
    | None => (Raise (NotExistsInConfigException "tempo"), song_world)
    end.
Proof.
  apply (get_data_value_single_key song_world song_doc "tempo" "/");
    reflexivity.
Defined.

(** X7: with a separator of one character, a path that ends with the
    separator asks for the empty key of the mapping the path before it
    resolves to; when that mapping has no empty key, the resolver raises
    the not-found error with the whole path, separator included. *)
Theorem get_data_value_trailing_separator w c data_path m :
  fst (_get_data_value (VStr data_path) (String c "") w) = Return (VDict m) ->
  m !! "" = None ->
  _get_data_value (VStr (data_path ++ String c "")) (String c "") w
  = (Raise (NotExistsInConfigException (data_path ++ String c "")), w).
Proof.
  intros Hret Hm.
  rewrite (get_data_value_str _ _ _ _ (str_split_char c data_path)) in Hret.
  apply walk_returns in Hret.
  rewrite (get_data_value_str _ _ _ _ (str_split_join c data_path "")).
  rewrite (walk_app _ _ _ _ _ _ Hret). simpl split_go.
  rewrite walk_missing; [done|by left].
Qed.

Lemma get_data_value_trailing_separator_witness :
  _get_data_value (VStr "printer/") "/" project_world
  = (Raise (NotExistsInConfigException "printer/"), project_world).
Proof.
  apply (get_data_value_trailing_separator project_world _
           "printer" printer_table).
  - vm_compute. reflexivity.
  - vm_compute. reflexivity.
Defined.

(** X8: on a loaded store without an empty key at the root, a path that
    starts with the separator is never found, whatever follows. *)
Theorem get_data_value_leading_separator w d sep rest :
  loaded w d ->
  sep <> "" ->
  d !! "" = None ->
  _get_data_value (VStr (sep ++ rest)) sep w
  = (Raise (NotExistsInConfigException (sep ++ rest)), w).
Proof.
  intros Hl Hsep Hd. destruct sep as [|c sep]; [done|].
  assert (str_split (String c sep ++ rest) (String c sep)
          = Return ("" :: split_go (String c sep) rest 0 "")) as Hs.
  { unfold str_split. by rewrite split_go_leading. }
  rewrite (get_data_value_loaded _ _ _ _ _ Hl Hs).
  rewrite walk_missing; [done|by left].
Qed.

Lemma get_data_value_leading_separator_witness :
  _get_data_value (VStr "/printer/x_dim") "/" project_world
  = (Raise (NotExistsInConfigException "/printer/x_dim"), project_world).
Proof.
  apply (get_data_value_leading_separator project_world project_doc "/"
           "printer/x_dim").
  - reflexivity.
  - discriminate.
  - vm_compute. reflexivity.
Defined.

(** X9: two calls whose paths split into the same segments, each on its
    own separator, return the same values from the same state. *)
Theorem get_data_value_same_segments w path1 sep1 path2 sep2 segs v :
  str_split path1 sep1 = Return segs ->
  str_split path2 sep2 = Return segs ->
  fst (_get_data_value (VStr path1) sep1 w) = Return v
  <-> fst (_get_data_value (VStr path2) sep2 w) = Return v.
Proof.
  intros H1 H2.
  rewrite (get_data_value_str _ _ _ _ H1), (get_data_value_str _ _ _ _ H2).
  split; apply walk_returns_any_path.
Qed.

Lemma get_data_value_same_segments_witness :
  fst (_get_data_value (VStr "printer.x_dim") "." project_world) = Return (VFloat 220)
  <-> fst (_get_data_value (VStr "printer/x_dim") "/" project_world) = Return (VFloat 220).
Proof.
  apply (get_data_value_same_segments project_world "printer.x_dim" "."
           "printer/x_dim" "/" ["printer"; "x_dim"]); reflexivity.
Defined.

(** X10: with a separator of one character, when a path resolves to a
    mapping, resolving a longer path below it in the store returns what
    resolving the remainder returns in an object whose store is that
    mapping. *)
Theorem get_data_value_nested w c data_path rest m v :
  fst (_get_data_value (VStr data_path) (String c "") w) = Return (VDict m) ->
  fst (_get_data_value (VStr (data_path ++ String c rest)) (String c "") w)
  = Return v
  <-> fst (_get_data_value (VStr rest) (String c "")
             {| self_obj := {| inst_config_data := Some (VDict m) |};
                stdout := stdout w |}) = Return v.
Proof.
  intros Hret.
  rewrite (get_data_value_str _ _ _ _ (str_split_char c data_path)) in Hret.
  apply walk_returns in Hret.
  rewrite (get_data_value_str _ _ _ _ (str_split_join c data_path rest)).
  rewrite (walk_app _ _ _ _ _ _ Hret).
  rewrite (get_data_value_str _ _ _ _ (str_split_char c rest)).
  cbn [self_obj attr_config_data inst_config_data default].
  split; intros H.
  - apply walk_returns in H. by rewrite (walk_resolves _ _ _ _ _ H).
  - apply walk_returns in H. by rewrite (walk_resolves _ _ _ _ _ H).
Qed.

Lemma get_data_value_nested_witness :
  fst (_get_data_value (VStr "printer/z_dim") "/" project_world)
  = Return (VFloat 250)
  <-> fst (_get_data_value (VStr "z_dim") "/"
             {| self_obj := {| inst_config_data := Some (VDict printer_table) |};
                stdout := stdout project_world |}) = Return (VFloat 250).
Proof.
  apply (get_data_value_nested project_world _ "printer" "z_dim"
           printer_table (VFloat 250)).
  vm_compute. reflexivity.
Defined.

(** * Further properties of the loader *)

Lemma load_body_raises env filepath e w :
  load_raises env filepath e -> load_body env filepath w = (Raise e, w).
Proof.
  unfold load_body. py_unfold.
  intros [Ha | [(fp & Ha & Ho) | (fp & cf & Ha & Ho & Hp)]].
  - by rewrite Ha.
  - by rewrite Ha, Ho.
  - by rewrite Ha, Ho, Hp.
Qed.

(** X11: when the filepath passes the guard and a step of the load raises
    [e], [could_load_file] returns [False], leaves the object alone and
    prints exactly one line: the format message for a [TOMLDecodeError],
    the not-found message for a [FileNotFoundError], and the text of the
    exception after [Something went wrong: ] for anything else. *)
Theorem could_load_file_diagnostic env filepath w e :
  filepath <> VNone ->
  filepath <> VStr "" ->
  load_raises env filepath e ->
  exists line,
    could_load_file env filepath w
    = (Return false,
       {| self_obj := self_obj w; stdout := (stdout w ++ [line])%list |})
    /\ (forall m, e = TOMLDecodeError m -> line = msg_format)
    /\ (forall m, e = FileNotFoundError m -> line = msg_not_found)
    /\ ((forall m, e <> TOMLDecodeError m) ->
        (forall m, e <> FileNotFoundError m) ->
        line = "Something went wrong: " ++ exn_message e).
Proof.
  intros Hn He Hr. unfold could_load_file.
  destruct (is_None filepath || eq_str filepath "") eqn:Hg;
    [apply filepath_guard in Hg as [? | ?]; done|].
  unfold try_except. rewrite (load_body_raises _ _ _ _ Hr).
  destruct e; eexists; (split; [reflexivity|]);
    repeat split; try done; try (by intros m [=]).
  - intros H. by destruct (H msg).
  - intros _ H. by destruct (H msg).
Qed.

Lemma could_load_file_diagnostic_witness :
  exists line,
    could_load_file sample_env (VStr "broken.toml") project_world
    = (Return false,
       {| self_obj := self_obj project_world;
          stdout := (stdout project_world ++ [line])%list |})
    /\ (forall m, TOMLDecodeError "Invalid statement" = TOMLDecodeError m ->
        line = msg_format)
    /\ (forall m, TOMLDecodeError "Invalid statement" = FileNotFoundError m ->
        line = msg_not_found)
    /\ ((forall m, TOMLDecodeError "Invalid statement" <> TOMLDecodeError m) ->
        (forall m, TOMLDecodeError "Invalid statement" <> FileNotFoundError m) ->
        line = "Something went wrong: "
               ++ exn_message (TOMLDecodeError "Invalid statement")).
Proof.
  apply (could_load_file_diagnostic sample_env (VStr "broken.toml")
           project_world (TOMLDecodeError "Invalid statement")).
  - discriminate.
  - discriminate.
  - right. right.
    exists "/home/melod/broken.toml", (String.list_byte_of_string "[printer").
    repeat split; vm_compute; reflexivity.
Defined.

(** X12: without a filepath ([None] or the empty string) the loader
    touches neither the file system nor the object: it prints that a
    filepath is required and returns [False], in any environment. *)
Theorem could_load_file_no_filepath env filepath w :
  filepath = VNone \/ filepath = VStr "" ->
  could_load_file env filepath w
  = (Return false,
     {| self_obj := self_obj w; stdout := (stdout w ++ [msg_required])%list |}).
Proof.
  intros H. apply filepath_guard in H. unfold could_load_file. by rewrite H.
Qed.

Lemma could_load_file_no_filepath_witness :
  could_load_file sample_env (VStr "") project_world
  = (Return false,
     {| self_obj := self_obj project_world;
        stdout := (stdout project_world ++ [msg_required])%list |}).
Proof.
  apply (could_load_file_no_filepath sample_env (VStr "") project_world).
  by right.
Defined.

(** X13: [could_load_file] returns [True] exactly when the filepath is
    neither [None] nor empty and the path resolves, the file opens and its
    content parses; it then prints nothing. *)
Theorem could_load_file_true_iff env filepath w :
  (fst (could_load_file env filepath w) = Return true
   <-> filepath <> VNone /\ filepath <> VStr ""
       /\ exists full_path config_file parsed,
            os_path_abspath env filepath = Return full_path
            /\ open_rb env full_path = Return config_file
            /\ tomllib_load env config_file = Return parsed)
  /\ (fst (could_load_file env filepath w) = Return true ->
      stdout (snd (could_load_file env filepath w)) = stdout w).
Proof.
  assert (forall v, is_None v || eq_str v "" = false
                    <-> v <> VNone /\ v <> VStr "") as Hguard.
  { intros v. split.
    - intros Hg. split; intros ->; done.
    - intros [Hn He]. destruct (is_None v || eq_str v "") eqn:Hg; [|done].
      apply filepath_guard in Hg as [? | ?]; done. }
  destruct (could_load_file_cases env filepath w)
    as [[line Hc] | (fp & cf & parsed & Hg & Ha & Ho & Hp & Hc)].
  - rewrite Hc. simpl. split; [|done]. split; [done|].
    intros (Hn & He & fp & cf & parsed & Ha & Ho & Hp).
    assert (is_None filepath || eq_str filepath "" = false) as Hg
      by by apply Hguard.
    rewrite (could_load_file_success env _ w _ _ _ Hg Ha Ho Hp) in Hc. done.
  - rewrite Hc. simpl. split; [|done]. split; [|done].
    intros _. apply Hguard in Hg as [Hn He]. repeat split; try done.
    by exists fp, cf, parsed.
Qed.

(** X14: a load that succeeds from one state succeeds from every other
    and gives the same store: what was loaded, or failed to load, before
    does not show in the result. *)
Theorem could_load_file_overrides env filepath w w1 w2 :
  could_load_file env filepath w1 = (Return true, w2) ->
  exists w2',
    could_load_file env filepath w = (Return true, w2')
    /\ self_obj w2' = self_obj w2.
Proof.
  intros H2.
  apply could_load_file_true in H2 as (fp & cf & parsed & Hg & Ha & Ho & Hp & ->).
  eexists. split; [by apply (could_load_file_success env _ w _ _ _ Hg Ha Ho Hp)|done].
Qed.

Lemma could_load_file_overrides_witness :
  exists w2',
    could_load_file sample_env (VStr "project.toml") song_world = (Return true, w2')
    /\ self_obj w2' = self_obj project_world.
Proof.
  apply (could_load_file_overrides sample_env (VStr "project.toml")
           song_world new_config project_world).
  vm_compute. reflexivity.
Defined.

(** * Reads see the store and nothing else *)

Lemma walk_fst data_path segs data w1 w2 :
  fst (walk data_path segs data w1) = fst (walk data_path segs data w2).
Proof.
  revert data. induction segs as [|k segs IH]; intros data; simpl; [done|].
  py_unfold. destruct (py_get data k) as [v|e]; [|done].
  destruct (is_None v); [done|apply IH].
Qed.

Lemma get_data_value_store_only data_path sep w1 w2 :
  self_obj w1 = self_obj w2 ->
  fst (_get_data_value data_path sep w1) = fst (_get_data_value data_path sep w2).
Proof.
  intros Hw. unfold _get_data_value. py_unfold.
  destruct (py_split data_path sep) as [segs|e]; [|done].
  destruct (is_None data_path || eq_empty_list data_path); [done|].
  rewrite Hw. apply walk_fst.
Qed.

Lemma bind_store_only {A B} (m : Py A) (k : A -> Py B) w1 w2 :
  (forall w, snd (m w) = w) ->
  (forall u1 u2, self_obj u1 = self_obj u2 -> fst (m u1) = fst (m u2)) ->
  (forall a u1 u2, self_obj u1 = self_obj u2 -> fst (k a u1) = fst (k a u2)) ->
  self_obj w1 = self_obj w2 ->
  fst ((m ≫= k) w1) = fst ((m ≫= k) w2).
Proof.
  intros Hs Hm Hk Hw. unfold mbind, Py_bind.
  pose proof (Hs w1) as S1. pose proof (Hs w2) as S2. specialize (Hm _ _ Hw).
  destruct (m w1) as [[a1|e1] u1], (m w2) as [[a2|e2] u2];
    simpl in *; subst; try discriminate Hm.
  - injection Hm as ->. by apply Hk.
  - by injection Hm as ->.
Qed.

(** One resolver call at the head of a chain of binds. *)
Ltac store_only_step H :=
  apply bind_store_only;
  [apply get_data_value_state
  |intros; by apply get_data_value_store_only
  |clear H; intros ? ? ? H
  |exact H].

Lemma triple_store_only a b c w1 w2 :
  self_obj w1 = self_obj w2 -> fst (triple a b c w1) = fst (triple a b c w2).
Proof.
  unfold triple. intros Hw.
  store_only_step Hw. store_only_step Hw. store_only_step Hw. done.
Qed.

(** X15: after a call of [could_load_file] that returned [False], the
    resolver, for every path and separator, and every accessor answer
    what they answered before the call. *)
Theorem failed_load_keeps_reads env filepath w w' :
  could_load_file env filepath w = (Return false, w') ->
  (forall data_path sep,
      fst (_get_data_value data_path sep w') = fst (_get_data_value data_path sep w))
  /\ fst (get_printer_angles_per_step w') = fst (get_printer_angles_per_step w)
  /\ fst (get_printer_rot_distance_per_rev w') = fst (get_printer_rot_distance_per_rev w)
  /\ fst (get_printer_dimensions w') = fst (get_printer_dimensions w)
  /\ fst (get_song_config_path w') = fst (get_song_config_path w)
  /\ fst (get_song_properties w') = fst (get_song_properties w)
  /\ fst (get_song_tempo w') = fst (get_song_tempo w)
  /\ fst (get_song_octaves_adjustment w') = fst (get_song_octaves_adjustment w).
Proof.
  intros H. apply could_load_file_false in H.
  split; [intros; by apply get_data_value_store_only|].
  do 3 (split; [by apply triple_store_only|]).
  split; [by apply get_data_value_store_only|].
  split.
  { unfold get_song_properties.
    store_only_step H. store_only_step H. done. }
  split; [by apply get_data_value_store_only|by apply triple_store_only].
Qed.

Lemma failed_load_keeps_reads_witness :
  (forall data_path sep,
      fst (_get_data_value data_path sep
             {| self_obj := self_obj project_world; stdout := [msg_not_found] |})
      = fst (_get_data_value data_path sep project_world))
  /\ fst (get_printer_angles_per_step
            {| self_obj := self_obj project_world; stdout := [msg_not_found] |})
     = fst (get_printer_angles_per_step project_world)
  /\ fst (get_printer_rot_distance_per_rev
            {| self_obj := self_obj project_world; stdout := [msg_not_found] |})
     = fst (get_printer_rot_distance_per_rev project_world)
  /\ fst (get_printer_dimensions
            {| self_obj := self_obj project_world; stdout := [msg_not_found] |})
     = fst (get_printer_dimensions project_world)
  /\ fst (get_song_config_path
            {| self_obj := self_obj project_world; stdout := [msg_not_found] |})
     = fst (get_song_config_path project_world)
  /\ fst (get_song_properties
            {| self_obj := self_obj project_world; stdout := [msg_not_found] |})
     = fst (get_song_properties project_world)
  /\ fst (get_song_tempo
            {| self_obj := self_obj project_world; stdout := [msg_not_found] |})
     = fst (get_song_tempo project_world)
  /\ fst (get_song_octaves_adjustment
            {| self_obj := self_obj project_world; stdout := [msg_not_found] |})
     = fst (get_song_octaves_adjustment project_world).
Proof.
  apply (failed_load_keeps_reads sample_env (VStr "missing.toml")).
  vm_compute. reflexivity.
Defined.

(** * Further properties of the accessors *)

(** Three paths that resolve make the tuple of their values. *)
Lemma triple_returns w d a b c sa sb sc x y z :
  loaded w d ->
  str_split a "/" = Return sa -> Resolves (VDict d) sa x ->
  str_split b "/" = Return sb -> Resolves (VDict d) sb y ->
  str_split c "/" = Return sc -> Resolves (VDict d) sc z ->
  triple a b c w = (Return (x, y, z), w).
Proof.
  intros Hl Ha Hx Hb Hy Hc Hz. unfold triple, mbind, Py_bind.
  rewrite (get_data_value_loaded _ _ _ _ _ Hl Ha), (walk_resolves _ _ _ _ w Hx).
  rewrite (get_data_value_loaded _ _ _ _ _ Hl Hb), (walk_resolves _ _ _ _ w Hy).
  by rewrite (get_data_value_loaded _ _ _ _ _ Hl Hc), (walk_resolves _ _ _ _ w Hz).
Qed.

(** A key of a table of the root dict. *)
Lemma Resolves_table (d m : gmap string value) section key v :
  d !! section = Some (VDict m) -> m !! key = Some v -> v <> VNone ->
  Resolves (VDict d) [section; key] v.
Proof.
  intros Hd Hm Hv. apply (Resolves_cons d section (VDict m)); [done..|].
  apply (Resolves_cons m key v); [done..|constructor].
Qed.

(** A key of the root dict. *)
Lemma Resolves_key (d : gmap string value) key v :
  d !! key = Some v -> v <> VNone -> Resolves (VDict d) [key] v.
Proof. intros Hd Hv. apply (Resolves_cons d key v); [done..|constructor]. Qed.

(** X16: on a loaded store whose [printer] table binds [x_ang], [y_ang]
    and [z_ang] to values that are not null,
    [get_printer_angles_per_step] returns those three values, x, y, z in
    that order, as they are stored. *)
Theorem get_printer_angles_per_step_returns w d m x y z :
  loaded w d ->
  d !! "printer" = Some (VDict m) ->
  m !! "x_ang" = Some x -> x <> VNone ->
  m !! "y_ang" = Some y -> y <> VNone ->
  m !! "z_ang" = Some z -> z <> VNone ->
  get_printer_angles_per_step w = (Return (x, y, z), w).
Proof.
  intros Hl Hp Hx Hx' Hy Hy' Hz Hz'.
  apply (triple_returns w d _ _ _ ["printer"; "x_ang"] ["printer"; "y_ang"]
           ["printer"; "z_ang"]); try done; by apply (Resolves_table d m).
Qed.

Lemma get_printer_angles_per_step_returns_witness :
  get_printer_angles_per_step project_world
  = (Return (VFloat 1.5, VFloat 1.5, VFloat 0.75), project_world).
Proof.
  apply (get_printer_angles_per_step_returns project_world project_doc printer_table);
    try discriminate; vm_compute; reflexivity.
Defined.

(** X17: on a loaded store whose [printer] table binds [x_rpr], [y_rpr]
    and [z_rpr] to values that are not null,
    [get_printer_rot_distance_per_rev] returns those three values, x, y, z
    in that order, as they are stored. *)
Theorem get_printer_rot_distance_per_rev_returns w d m x y z :
  loaded w d ->
  d !! "printer" = Some (VDict m) ->
  m !! "x_rpr" = Some x -> x <> VNone ->
  m !! "y_rpr" = Some y -> y <> VNone ->
  m !! "z_rpr" = Some z -> z <> VNone ->
  get_printer_rot_distance_per_rev w = (Return (x, y, z), w).
Proof.
  intros Hl Hp Hx Hx' Hy Hy' Hz Hz'.
  apply (triple_returns w d _ _ _ ["printer"; "x_rpr"] ["printer"; "y_rpr"]
           ["printer"; "z_rpr"]); try done; by apply (Resolves_table d m).
Qed.

Lemma get_printer_rot_distance_per_rev_returns_witness :
  get_printer_rot_distance_per_rev project_world
  = (Return (VFloat 40, VFloat 40, VFloat 8), project_world).
Proof.
  apply (get_printer_rot_distance_per_rev_returns project_world project_doc
           printer_table);
    try discriminate; vm_compute; reflexivity.
Defined.

(** X18: on a loaded store whose [song] table binds [config_filepath] to
    a value that is not null, [get_song_config_path] returns that value. *)
Theorem get_song_config_path_returns w d m v :
  loaded w d ->
  d !! "song" = Some (VDict m) ->
  m !! "config_filepath" = Some v -> v <> VNone ->
  get_song_config_path w = (Return v, w).
Proof.
  intros Hl Hs Hv Hv'. unfold get_song_config_path.
  rewrite (get_data_value_loaded w d "song/config_filepath" "/"
             ["song"; "config_filepath"] Hl eq_refl).
  apply walk_resolves. by apply (Resolves_table d m).
Qed.

Lemma get_song_config_path_returns_witness :
  get_song_config_path project_world = (Return (VStr "songs/ode.toml"), project_world).
Proof.
  apply (get_song_config_path_returns project_world project_doc
           {["config_filepath" := VStr "songs/ode.toml"]});
    try discriminate; vm_compute; reflexivity.
Defined.

(** X19: on a loaded store that binds [song_name] and [song_directory]
    at the root to values that are not null, [get_song_properties] returns
    the pair of them, the name first. *)
Theorem get_song_properties_returns w d name directory :
  loaded w d ->
  d !! "song_name" = Some name -> name <> VNone ->
  d !! "song_directory" = Some directory -> directory <> VNone ->
  get_song_properties w = (Return (name, directory), w).
Proof.
  intros Hl Hn Hn' Hd Hd'. unfold get_song_properties, mbind, Py_bind.
  rewrite (get_data_value_loaded w d "song_name" "/" ["song_name"] Hl eq_refl).
  rewrite (walk_resolves _ _ _ _ w (Resolves_key d _ _ Hn Hn')).
  rewrite (get_data_value_loaded w d "song_directory" "/" ["song_directory"]
             Hl eq_refl).
  by rewrite (walk_resolves _ _ _ _ w (Resolves_key d _ _ Hd Hd')).
Qed.

Lemma get_song_properties_returns_witness :
  get_song_properties song_world
  = (Return (VStr "Ode to Joy", VStr "songs/ode"), song_world).
Proof.
  apply (get_song_properties_returns song_world song_doc);
    try discriminate; vm_compute; reflexivity.
Defined.

(** X20: on a loaded store that binds [tempo] at the root to a value that
    is not null, [get_song_tempo] returns that value as it is stored, an
    int as an int and a float as a float. *)
Theorem get_song_tempo_returns w d tempo :
  loaded w d ->
  d !! "tempo" = Some tempo -> tempo <> VNone ->
  get_song_tempo w = (Return tempo, w).
Proof.
  intros Hl Ht Ht'. unfold get_song_tempo.
  rewrite (get_data_value_loaded w d "tempo" "/" ["tempo"] Hl eq_refl).
  apply walk_resolves. by apply Resolves_key.
Qed.

Lemma get_song_tempo_returns_witness :
  get_song_tempo song_world = (Return (VInt 120), song_world).
Proof.
  apply (get_song_tempo_returns song_world song_doc);
    try discriminate; vm_compute; reflexivity.
Defined.

(** X21: on a loaded store that binds [x_octave_adj], [y_octave_adj] and
    [z_octave_adj] at the root to values that are not null,
    [get_song_octaves_adjustment] returns those three values, x, y, z in
    that order. *)
Theorem get_song_octaves_adjustment_returns w d x y z :
  loaded w d ->
  d !! "x_octave_adj" = Some x -> x <> VNone ->
  d !! "y_octave_adj" = Some y -> y <> VNone ->
  d !! "z_octave_adj" = Some z -> z <> VNone ->
  get_song_octaves_adjustment w = (Return (x, y, z), w).
Proof.
  intros Hl Hx Hx' Hy Hy' Hz Hz'.
  apply (triple_returns w d _ _ _ ["x_octave_adj"] ["y_octave_adj"]
           ["z_octave_adj"]); try done; by apply Resolves_key.
Qed.

Lemma get_song_octaves_adjustment_returns_witness :
  get_song_octaves_adjustment song_world
  = (Return (VInt 0, VInt (-1), VInt 1), song_world).
Proof.
  apply (get_song_octaves_adjustment_returns song_world song_doc);
    try discriminate; vm_compute; reflexivity.
Defined.

Lemma walk_table_missing data_path (d m : gmap string value) section key w :
  d !! section = Some (VDict m) -> m !! key = None ->
  walk data_path [section; key] (VDict d) w
  = (Raise (NotExistsInConfigException (format_path data_path)), w).
Proof.
  intros Hd Hm. simpl. py_unfold. rewrite Hd. simpl. by rewrite Hm.
Qed.

(** X22: on a loaded store with a [printer] table,
    [get_printer_dimensions] fails on the first axis, in x, y, z order,
    whose key the table lacks, with the not-found error that carries the
    path of that axis. *)
Theorem get_printer_dimensions_first_missing w d m :
  loaded w d ->
  d !! "printer" = Some (VDict m) ->
  (m !! "x_dim" = None ->
   get_printer_dimensions w
   = (Raise (NotExistsInConfigException "printer/x_dim"), w))
  /\ (forall x, m !! "x_dim" = Some x -> x <> VNone -> m !! "y_dim" = None ->
      get_printer_dimensions w
      = (Raise (NotExistsInConfigException "printer/y_dim"), w))
  /\ (forall x y,
        m !! "x_dim" = Some x -> x <> VNone ->
        m !! "y_dim" = Some y -> y <> VNone -> m !! "z_dim" = None ->
        get_printer_dimensions w
        = (Raise (NotExistsInConfigException "printer/z_dim"), w)).
Proof.
  intros Hl Hp. unfold get_printer_dimensions, triple, mbind, Py_bind.
  rewrite (get_data_value_loaded w d "printer/x_dim" "/" ["printer"; "x_dim"]
             Hl eq_refl).
  split; [|split].
  - intros Hx. by rewrite (walk_table_missing _ d m _ _ w Hp Hx).
  - intros x Hx Hx' Hy.
    rewrite (walk_resolves _ _ _ _ w (Resolves_table d m _ _ _ Hp Hx Hx')).
    rewrite (get_data_value_loaded w d "printer/y_dim" "/" ["printer"; "y_dim"]
               Hl eq_refl).
    by rewrite (walk_table_missing _ d m _ _ w Hp Hy).
  - intros x y Hx Hx' Hy Hy' Hz.
    rewrite (walk_resolves _ _ _ _ w (Resolves_table d m _ _ _ Hp Hx Hx')).
    rewrite (get_data_value_loaded w d "printer/y_dim" "/" ["printer"; "y_dim"]
               Hl eq_refl).
    rewrite (walk_resolves _ _ _ _ w (Resolves_table d m _ _ _ Hp Hy Hy')).
    rewrite (get_data_value_loaded w d "printer/z_dim" "/" ["printer"; "z_dim"]
               Hl eq_refl).
    by rewrite (walk_table_missing _ d m _ _ w Hp Hz).
Qed.

Lemma get_printer_dimensions_first_missing_witness :
  get_printer_dimensions x_only_world
  = (Raise (NotExistsInConfigException "printer/y_dim"), x_only_world).
Proof.
  destruct (get_printer_dimensions_first_missing x_only_world
              {["printer" := VDict {["x_dim" := VFloat 220]}]}
              {["x_dim" := VFloat 220]})
    as (_ & Hy & _); [reflexivity | vm_compute; reflexivity |].
  apply (Hy (VFloat 220)); [vm_compute; reflexivity | discriminate
                           | vm_compute; reflexivity].
Defined.

(** X23: on a loaded store without a [printer] key, each of the three
    printer accessors fails at its first path, the one of the x axis, with
    the not-found error. *)
Theorem printer_accessors_without_section w d :
  loaded w d ->
  d !! "printer" = None ->
  get_printer_angles_per_step w
  = (Raise (NotExistsInConfigException "printer/x_ang"), w)
  /\ get_printer_rot_distance_per_rev w
     = (Raise (NotExistsInConfigException "printer/x_rpr"), w)
  /\ get_printer_dimensions w
     = (Raise (NotExistsInConfigException "printer/x_dim"), w).
Proof.
  intros Hl Hp.
  unfold get_printer_angles_per_step, get_printer_rot_distance_per_rev,
    get_printer_dimensions, triple, mbind, Py_bind.
  rewrite (get_data_value_loaded w d "printer/x_ang" "/" ["printer"; "x_ang"]
             Hl eq_refl).
  rewrite (get_data_value_loaded w d "printer/x_rpr" "/" ["printer"; "x_rpr"]
             Hl eq_refl).
  rewrite (get_data_value_loaded w d "printer/x_dim" "/" ["printer"; "x_dim"]
             Hl eq_refl).
  rewrite !walk_missing by (by left). done.
Qed.

Lemma printer_accessors_without_section_witness :
  get_printer_angles_per_step song_world
  = (Raise (NotExistsInConfigException "printer/x_ang"), song_world)
  /\ get_printer_rot_distance_per_rev song_world
     = (Raise (NotExistsInConfigException "printer/x_rpr"), song_world)
  /\ get_printer_dimensions song_world
     = (Raise (NotExistsInConfigException "printer/x_dim"), song_world).
Proof.
  apply (printer_accessors_without_section song_world song_doc);
    vm_compute; reflexivity.
Defined.

(** X24: on a loaded store, [get_song_properties] fails with the
    not-found error of [song_name] when that key is missing, whatever
    [song_directory] is, and with the one of [song_directory] when only
    that one is missing. *)
Theorem get_song_properties_first_missing w d :
  loaded w d ->
  (d !! "song_name" = None ->
   get_song_properties w = (Raise (NotExistsInConfigException "song_name"), w))
  /\ (forall name,
        d !! "song_name" = Some name -> name <> VNone ->
        d !! "song_directory" = None ->
        get_song_properties w
        = (Raise (NotExistsInConfigException "song_directory"), w)).
Proof.
  intros Hl. unfold get_song_properties, mbind, Py_bind.
  rewrite (get_data_value_loaded w d "song_name" "/" ["song_name"] Hl eq_refl).
  split.
  - intros Hn. rewrite walk_missing by (by left). done.
  - intros name Hn Hn' Hd.
    rewrite (walk_resolves _ _ _ _ w (Resolves_key d _ _ Hn Hn')).
    rewrite (get_data_value_loaded w d "song_directory" "/" ["song_directory"]
               Hl eq_refl).
    rewrite walk_missing by (by left). done.
Qed.

Lemma get_song_properties_first_missing_witness :
  get_song_properties project_world
  = (Raise (NotExistsInConfigException "song_name"), project_world).
Proof.
  destruct (get_song_properties_first_missing project_world project_doc)
    as [Hn _]; [reflexivity|].
  apply Hn. vm_compute. reflexivity.
Defined.
